(** * The page fill worker of sched/pg_worker.c

    A shallow embedding of the demand-paging fill coordinator: the globals
    [g_pgworker], [g_pendingfilltcb], [g_waitingforfill], [g_fillresult] and
    [g_starttime], the completion callback [pg_callback], the helpers
    [pg_startfill], [pg_alldone] and [pg_fillcomplete], and one pass of the
    [for (;;)] loop of [pg_worker].

    The file is configured by the preprocessor.  The configuration is a record
    and every definition selects its code the way the conditionals of the
    source do.  [builds] tells for which configurations the source compiles;
    only for those does the repository contain a program. *)

From Stdlib Require Import ZArith List Bool Lia Relations.
Import ListNotations.
Open Scope Z_scope.

(** ** Constants of the headers *)

(** Modelled from the spec: the status [OK] and the values of errno.h are not
    part of the sources; "success", "busy" and "not supported" are three
    distinct results.  The numbers are those of NuttX's headers. *)
Definition OK : Z := 0.

(** Modelled from the spec: [EBUSY] of errno.h, "no result yet". *)
Definition EBUSY : Z := 16.

(** Modelled from the spec: [ENOSYS] of errno.h, the generic "not supported"
    error. *)
Definition ENOSYS : Z := 38.

(** Unsigned 32-bit arithmetic of [g_system_timer] and [g_starttime]. *)
Definition uint32 (z : Z) : Z := z mod 2 ^ 32.

(** ** Configuration *)

Record config := {
  (** [#ifdef CONFIG_PAGING_BLOCKINGFILL] *)
  CONFIG_PAGING_BLOCKINGFILL : bool;
  (** [Some n] when [CONFIG_PAGING_TIMEOUT_TICKS] is defined as [n] *)
  CONFIG_PAGING_TIMEOUT_TICKS : option Z;
  (** priority restored by [pg_alldone] *)
  CONFIG_PAGING_DEFPRIO : Z
}.

(** ** Which configurations build *)

(** [g_fillresult] is declared inside [#ifndef CONFIG_PAGING_BLOCKINGFILL]
    (lines 100-106). *)
Definition declares_fillresult (cfg : config) : bool :=
  negb (CONFIG_PAGING_BLOCKINGFILL cfg).

(** [g_fillresult] is read by [pg_worker] inside
    [#ifdef CONFIG_PAGING_BLOCKINGFILL] (lines 444-460).  The other use, in
    [pg_callback], is under the [#ifndef] of line 157. *)
Definition uses_fillresult_undeclared (cfg : config) : bool :=
  CONFIG_PAGING_BLOCKINGFILL cfg && negb (declares_fillresult cfg).

(** Line 486, [#if defined() && defined(CONFIG_PAGING_TIMEOUT_TICKS)], has
    a [defined] without a macro name; the directive is evaluated where its
    group, the one of line 444, is active. *)
Definition malformed_if_active (cfg : config) : bool :=
  CONFIG_PAGING_BLOCKINGFILL cfg.

(** Line 113, [status uint32_t g_starttime;], is no declaration; it is
    active inside the [#ifndef] of line 100 and the [#ifdef] of line 112. *)
Definition malformed_declaration_active (cfg : config) : bool :=
  negb (CONFIG_PAGING_BLOCKINGFILL cfg) &&
  match CONFIG_PAGING_TIMEOUT_TICKS cfg with Some _ => true | None => false end.

(** The source compiles for a configuration when none of the three is in
    its way. *)
Definition builds (cfg : config) : bool :=
  negb (uses_fillresult_undeclared cfg) &&
  negb (malformed_if_active cfg) &&
  negb (malformed_declaration_active cfg).

(** ** Tasks, calls to collaborators, state *)

(** A task is identified by a number; a [_TCB *] is an [option pid], [None]
    being [NULL]; [sched_gettcb] is [Some]. *)
Definition pid := nat.

(** Calls whose effect lies outside the state of this file, in call order. *)
Inductive event :=
| EvCheckMapping (tcb : pid)
| EvAllocPage (tcb : pid)
| EvFillPage (tcb : pid) (vpage : Z) (callback : bool)
| EvUnblock (tcb : option pid)
| EvKill (p : pid).

(** The architecture-specific functions.  Their status may depend on
    everything that was called before. *)
Record arch := {
  up_checkmapping : list event -> pid -> Z;
  up_allocpage : list event -> pid -> Z * Z;
  up_fillpage : list event -> pid -> Z -> Z
}.

Record state := {
  g_pgworker : pid;
  g_pendingfilltcb : option pid;
  g_waitingforfill : list pid;
  g_fillresult : Z;
  g_starttime : Z;
  g_system_timer : Z;
  g_readytorun_head : pid;
  sched_priority : pid -> Z;
  events : list event
}.

Definition set_pendingfilltcb (v : option pid) (s : state) : state :=
  {| g_pgworker := g_pgworker s; g_pendingfilltcb := v;
     g_waitingforfill := g_waitingforfill s; g_fillresult := g_fillresult s;
     g_starttime := g_starttime s; g_system_timer := g_system_timer s;
     g_readytorun_head := g_readytorun_head s;
     sched_priority := sched_priority s; events := events s |}.

Definition set_waitingforfill (v : list pid) (s : state) : state :=
  {| g_pgworker := g_pgworker s; g_pendingfilltcb := g_pendingfilltcb s;
     g_waitingforfill := v; g_fillresult := g_fillresult s;
     g_starttime := g_starttime s; g_system_timer := g_system_timer s;
     g_readytorun_head := g_readytorun_head s;
     sched_priority := sched_priority s; events := events s |}.

Definition set_fillresult (v : Z) (s : state) : state :=
  {| g_pgworker := g_pgworker s; g_pendingfilltcb := g_pendingfilltcb s;
     g_waitingforfill := g_waitingforfill s; g_fillresult := v;
     g_starttime := g_starttime s; g_system_timer := g_system_timer s;
     g_readytorun_head := g_readytorun_head s;
     sched_priority := sched_priority s; events := events s |}.

Definition set_starttime (v : Z) (s : state) : state :=
  {| g_pgworker := g_pgworker s; g_pendingfilltcb := g_pendingfilltcb s;
     g_waitingforfill := g_waitingforfill s; g_fillresult := g_fillresult s;
     g_starttime := v; g_system_timer := g_system_timer s;
     g_readytorun_head := g_readytorun_head s;
     sched_priority := sched_priority s; events := events s |}.

Definition set_system_timer (v : Z) (s : state) : state :=
  {| g_pgworker := g_pgworker s; g_pendingfilltcb := g_pendingfilltcb s;
     g_waitingforfill := g_waitingforfill s; g_fillresult := g_fillresult s;
     g_starttime := g_starttime s; g_system_timer := v;
     g_readytorun_head := g_readytorun_head s;
     sched_priority := sched_priority s; events := events s |}.

Definition log (e : event) (s : state) : state :=
  {| g_pgworker := g_pgworker s; g_pendingfilltcb := g_pendingfilltcb s;
     g_waitingforfill := g_waitingforfill s; g_fillresult := g_fillresult s;
     g_starttime := g_starttime s; g_system_timer := g_system_timer s;
     g_readytorun_head := g_readytorun_head s;
     sched_priority := sched_priority s; events := events s ++ [e] |}.

(** [sched_setpriority(tcb, prio)]: the [sched_priority] field of that TCB
    becomes [prio]. *)
Definition sched_setpriority (tcb : pid) (prio : Z) (s : state) : state :=
  {| g_pgworker := g_pgworker s; g_pendingfilltcb := g_pendingfilltcb s;
     g_waitingforfill := g_waitingforfill s; g_fillresult := g_fillresult s;
     g_starttime := g_starttime s; g_system_timer := g_system_timer s;
     g_readytorun_head := g_readytorun_head s;
     sched_priority := fun p => if Nat.eqb p tcb then prio else sched_priority s p;
     events := events s |}.

(** [up_unblock_task(tcb)] and [kill(pid, SIGWORK)] *)
Definition up_unblock_task (tcb : option pid) : state -> state := log (EvUnblock tcb).
Definition kill (p : pid) : state -> state := log (EvKill p).

(** [dq_remfirst]: the removed head ([NULL] on an empty queue) and the rest *)
Definition dq_remfirst (q : list pid) : option pid * list pid :=
  match q with
  | [] => (None, [])
  | t :: q' => (Some t, q')
  end.

(** The priority of the page fill worker thread *)
Definition worker_priority (s : state) : Z := sched_priority s (g_pgworker s).

(** ** Outcomes *)

(** A function of the worker returns, or an assertion brings the system down
    in the state reached. *)
Inductive outcome :=
| Returns (s : state)
| Asserts (s : state).

Definition final (o : outcome) : state :=
  match o with Returns s => s | Asserts s => s end.

Definition asserted (o : outcome) : bool :=
  match o with Returns _ => false | Asserts _ => true end.

(** Modelled from the spec: the macro [ASSERT] of assert.h is not part of the
    sources; a failed assertion is fatal, the code after it does not run. *)
Definition ASSERT (b : bool) (s : state) (k : state -> outcome) : outcome :=
  if b then k s else Asserts s.

(** Modelled from the spec: the macro [DEBUGASSERT] of assert.h is not part
    of the sources; the failures it guards are fatal assertions as well. *)
Definition DEBUGASSERT (b : bool) (s : state) (k : state -> outcome) : outcome :=
  ASSERT b s k.

Section Worker.

Variable cfg : config.
Variable hw : arch.

(** ** pg_callback (lines 158-202) *)

Definition pg_callback (tcb : pid) (result : Z) (s : state) : state :=
  let s :=
    match g_pendingfilltcb s with
    | Some ptcb =>
        let htcb := hd_error (g_waitingforfill s) in
        let wtcb := g_pgworker s in
        let priority := sched_priority s ptcb in
        let priority :=
          match htcb with
          | Some h => if priority <? sched_priority s h
                      then sched_priority s h else priority
          | None => priority
          end in
        let s := if priority >? sched_priority s wtcb
                 then sched_setpriority wtcb priority s else s in
        let result := if result =? - EBUSY then - ENOSYS else result in
        set_fillresult result s
    | None => s
    end in
  kill (g_pgworker s) s.

(** ** pg_startfill (lines 231-312) *)

Definition pg_startfill (s : state) : outcome :=
  let (head, rest) := dq_remfirst (g_waitingforfill s) in
  let s := set_pendingfilltcb head (set_waitingforfill rest s) in
  match head with
  | Some tcb =>
      let result := up_checkmapping hw (events s) tcb in
      let s := log (EvCheckMapping tcb) s in
      if result =? OK then
        let s := up_unblock_task (g_pendingfilltcb s) s in
        Returns (set_pendingfilltcb None s)
      else
        let (result, vpage) := up_allocpage hw (events s) tcb in
        let s := log (EvAllocPage tcb) s in
        DEBUGASSERT (result =? OK) s (fun s =>
        let result := up_fillpage hw (events s) tcb vpage in
        let s := log (EvFillPage tcb vpage (negb (CONFIG_PAGING_BLOCKINGFILL cfg))) s in
        DEBUGASSERT (result =? OK) s (fun s =>
        if CONFIG_PAGING_BLOCKINGFILL cfg then Returns s
        else
          match CONFIG_PAGING_TIMEOUT_TICKS cfg with
          | Some _ => Returns (set_starttime (g_system_timer s) s)
          | None => Returns s
          end))
  | None => Returns s
  end.

(** ** pg_alldone (lines 338-343) *)

Definition pg_alldone (s : state) : state :=
  let wtcb := g_readytorun_head s in
  let s := set_pendingfilltcb None s in
  sched_setpriority wtcb (CONFIG_PAGING_DEFPRIO cfg) s.

(** ** pg_fillcomplete (lines 370-377) *)

Definition pg_fillcomplete (s : state) : state :=
  up_unblock_task (g_pendingfilltcb s) s.

(** ** pg_worker (lines 405-536): one pass of the loop after [usleep] *)

(** Lines 450-510, the text under [#ifdef CONFIG_PAGING_BLOCKINGFILL]: the
    worker looks at [g_pendingfilltcb] and [g_fillresult].  No configuration
    that [builds] contains this text; it is embedded as it reads, with
    [g_fillresult] the field of the state.  Lines 486-492 are left out: the
    [#if] of line 486 is malformed, no preprocessing yields them. *)
Definition pg_worker_fillevent (s : state) : outcome :=
  match g_pendingfilltcb s with
  | Some _ =>
      if negb (g_fillresult s =? - EBUSY) then
        ASSERT (g_fillresult s =? OK) s (fun s =>
        let s := pg_fillcomplete s in
        match g_waitingforfill s with
        | _ :: _ => pg_startfill s
        | [] => Returns (pg_alldone s)
        end)
      else Returns s
  | None =>
      match g_waitingforfill s with
      | _ :: _ => pg_startfill s
      | [] => Returns s
      end
  end.

(** Lines 516-528, the [while] loop of the text under [#else].  [None] when
    the fuel does not suffice. *)
Fixpoint pg_worker_while (fuel : nat) (s : state) : option outcome :=
  match g_waitingforfill s with
  | [] => Some (Returns s)
  | _ :: _ =>
      match fuel with
      | O => None
      | S fuel' =>
          match pg_startfill s with
          | Returns s => pg_worker_while fuel' (pg_fillcomplete s)
          | Asserts s => Some (Asserts s)
          end
      end
  end.

(** Lines 516-532: the loop, then [pg_alldone]. *)
Definition pg_worker_fillall (s : state) : option outcome :=
  match pg_worker_while (length (g_waitingforfill s)) s with
  | Some (Returns s) => Some (Returns (pg_alldone s))
  | r => r
  end.

(** One pass of the body of [for (;;)], lines 444-533: the text the
    conditional of line 444 selects.  It is a program of the repository for
    the configurations that [builds] accepts. *)
Definition pg_worker_pass (s : state) : option outcome :=
  if CONFIG_PAGING_BLOCKINGFILL cfg
  then Some (pg_worker_fillevent s)
  else pg_worker_fillall s.

End Worker.

(** ** The worker-priority invariant *)

(** The worker runs at least at the priority of the task in
    [g_pendingfilltcb] and of the head of [g_waitingforfill], and at the
    default priority when there is neither. *)
Definition priority_invariant (cfg : config) (s : state) : Prop :=
  (forall tcb, g_pendingfilltcb s = Some tcb ->
     sched_priority s tcb <= worker_priority s) /\
  (forall tcb, hd_error (g_waitingforfill s) = Some tcb ->
     sched_priority s tcb <= worker_priority s) /\
  (g_pendingfilltcb s = None -> g_waitingforfill s = [] ->
     worker_priority s = CONFIG_PAGING_DEFPRIO cfg).

(** The higher of the priorities of the pending task [ptcb] and of the head
    of [g_waitingforfill]. *)
Definition boost_target (s : state) (ptcb : pid) : Z :=
  match hd_error (g_waitingforfill s) with
  | Some h => Z.max (sched_priority s ptcb) (sched_priority s h)
  | None => sched_priority s ptcb
  end.

(** What a call leaves alone when it writes nothing but [g_fillresult] and
    the signal to the worker. *)
Definition writes_only_result_and_signal (s s' : state) : Prop :=
  g_pgworker s' = g_pgworker s /\
  g_pendingfilltcb s' = g_pendingfilltcb s /\
  g_waitingforfill s' = g_waitingforfill s /\
  g_starttime s' = g_starttime s /\
  g_system_timer s' = g_system_timer s /\
  g_readytorun_head s' = g_readytorun_head s /\
  (forall p, sched_priority s' p = sched_priority s p) /\
  events s' = events s ++ [EvKill (g_pgworker s)].

(** What the coordinator does between two states that can be observed: a
    pass of the worker that returns to [usleep], a completion callback while
    the worker sleeps, or the timer going on. *)
Inductive coordinator_step (cfg : config) (hw : arch) : state -> state -> Prop :=
| step_pass (s s' : state) :
    pg_worker_pass cfg hw s = Some (Returns s') ->
    coordinator_step cfg hw s s'
| step_callback (tcb : pid) (result : Z) (s : state) :
    coordinator_step cfg hw s (pg_callback tcb result s)
| step_timer (ticks : Z) (s : state) :
    coordinator_step cfg hw s (set_system_timer (uint32 ticks) s).

(** The worker is the running task, the head of [g_readytorun]. *)
Definition worker_runs (s : state) : Prop := g_readytorun_head s = g_pgworker s.

(** ** Configurations, collaborators and states of the examples *)

(** [up_fillpage] takes a callback; no timeout. *)
Definition cfg_nonblocking : config :=
  {| CONFIG_PAGING_BLOCKINGFILL := false;
     CONFIG_PAGING_TIMEOUT_TICKS := None;
     CONFIG_PAGING_DEFPRIO := 10 |}.

(** [up_fillpage] takes a callback; a fill may take 10 ticks.  The source
    does not build for this configuration (line 113). *)
Definition cfg_nonblocking_timeout : config :=
  {| CONFIG_PAGING_BLOCKINGFILL := false;
     CONFIG_PAGING_TIMEOUT_TICKS := Some 10;
     CONFIG_PAGING_DEFPRIO := 10 |}.

(** [up_fillpage] blocks.  The source does not build for this
    configuration (lines 456 and 486). *)
Definition cfg_blocking : config :=
  {| CONFIG_PAGING_BLOCKINGFILL := true;
     CONFIG_PAGING_TIMEOUT_TICKS := None;
     CONFIG_PAGING_DEFPRIO := 10 |}.


(** Every page is missing, a page is found at 4096 and the fill starts. *)
Definition hw_fills : arch :=
  {| up_checkmapping := fun _ _ => -1;
     up_allocpage := fun _ _ => (OK, 4096);
     up_fillpage := fun _ _ _ => OK |}.

(** Every page is mapped already. *)
Definition hw_mapped : arch :=
  {| up_checkmapping := fun _ _ => OK;
     up_allocpage := fun _ _ => (OK, 4096);
     up_fillpage := fun _ _ _ => OK |}.

(** Every page is missing and no page can be set aside. *)
Definition hw_nopage : arch :=
  {| up_checkmapping := fun _ _ => -1;
     up_allocpage := fun _ _ => (-12, 0);
     up_fillpage := fun _ _ _ => OK |}.

(** Task 0 is the worker and runs; task [n] has priority [10 * n] for
    [n = 1, 2, 3]; the worker has priority [wprio]. *)
Definition example_priority (wprio : Z) (p : pid) : Z :=
  match p with
  | O => wprio
  | _ => 10 * Z.of_nat p
  end.

Definition example_state (pending : option pid) (waiting : list pid)
    (fillresult wprio : Z) : state :=
  {| g_pgworker := 0%nat;
     g_pendingfilltcb := pending;
     g_waitingforfill := waiting;
     g_fillresult := fillresult;
     g_starttime := 0;
     g_system_timer := 100;
     g_readytorun_head := 0%nat;
     sched_priority := example_priority wprio;
     events := [] |}.

(** The timer reads [ticks]. *)
Definition at_time (ticks : Z) (s : state) : state :=
  set_system_timer (uint32 ticks) s.

(** Nothing pending, tasks 2 and 1 waiting in priority order, the worker at
    its default priority. *)
Definition two_waiting : state := example_state None [2%nat; 1%nat] OK 10.

(** Nothing pending, task 1 waiting, the worker at its default priority. *)
Definition one_waiting : state := example_state None [1%nat] OK 10.


(** The fill of task 1 is pending and has failed with [-ENOSYS]. *)
Definition failed_fill : state := example_state (Some 1%nat) [] (- ENOSYS) 10.


(** ** Reading the log of calls *)

(** The tasks [up_checkmapping] was called for, in call order. *)
Definition checkmapping_calls (evs : list event) : list pid :=
  flat_map (fun e => match e with EvCheckMapping t => [t] | _ => [] end) evs.

(** The tasks [up_fillpage] was called for, in call order. *)
Definition fillpage_calls (evs : list event) : list pid :=
  flat_map (fun e => match e with EvFillPage t _ _ => [t] | _ => [] end) evs.

(** The tasks [up_unblock_task] was called for, in call order; a call with
    [NULL] names no task. *)
Definition unblocked_tasks (evs : list event) : list pid :=
  flat_map (fun e => match e with EvUnblock (Some t) => [t] | _ => [] end) evs.

(** The state in which a pass of the worker ends. *)
Definition pass_state (cfg : config) (hw : arch) (s : state) : state :=
  match pg_worker_pass cfg hw s with
  | Some o => final o
  | None => s
  end.

(** What [pg_callback] stores for [result]. *)
Definition stored_result (result : Z) : Z :=
  if result =? - EBUSY then - ENOSYS else result.



(** A page is found for every task but the fill cannot be started. *)
Definition hw_nofill : arch :=
  {| up_checkmapping := fun _ _ => -1;
     up_allocpage := fun _ _ => (OK, 4096);
     up_fillpage := fun _ _ _ => -5 |}.

(** The page of task 2 is mapped; every other page is missing and its fill
    starts. *)
Definition hw_mapped_2 : arch :=
  {| up_checkmapping := fun _ t => if Nat.eqb t 2 then OK else -1;
     up_allocpage := fun _ _ => (OK, 4096);
     up_fillpage := fun _ _ _ => OK |}.

(** ** Facts about the constants and the setters *)

Lemma busy_is_not_enosys : - ENOSYS <> - EBUSY.
Proof. unfold ENOSYS, EBUSY; lia. Qed.

Lemma busy_is_not_ok : - ENOSYS <> OK.
Proof. unfold ENOSYS, OK; lia. Qed.

Lemma dq_remfirst_cons (tcb : pid) (rest : list pid) :
  dq_remfirst (tcb :: rest) = (Some tcb, rest).
Proof. reflexivity. Qed.

(** ** The completion callback *)

(** Case analysis along the branches of [pg_callback]: a fill pending or
    not, a head waiter or not, and the two comparisons of priorities. *)
Ltac callback_cases s :=
  unfold pg_callback;
  let E := fresh "Epending" in
  destruct (g_pendingfilltcb s) eqn:E;
  [ destruct (hd_error (g_waitingforfill s));
    repeat match goal with
           | |- context [if ?a <? ?b then _ else _] => destruct (a <? b)
           | |- context [if ?a >? ?b then _ else _] => destruct (a >? b)
           end
  | ].

Section Callback.

Variables (tcb : pid) (result : Z) (s : state).

(** The callback logs one call, the signal to the worker. *)
Lemma pg_callback_events :
  events (pg_callback tcb result s) = events s ++ [EvKill (g_pgworker s)].
Proof. callback_cases s; reflexivity. Qed.

Lemma pg_callback_waitingforfill :
  g_waitingforfill (pg_callback tcb result s) = g_waitingforfill s.
Proof. callback_cases s; reflexivity. Qed.

Lemma pg_callback_pendingfilltcb :
  g_pendingfilltcb (pg_callback tcb result s) = g_pendingfilltcb s.
Proof. callback_cases s; cbn; auto. Qed.

Lemma pg_callback_globals :
  g_pgworker (pg_callback tcb result s) = g_pgworker s /\
  g_starttime (pg_callback tcb result s) = g_starttime s /\
  g_system_timer (pg_callback tcb result s) = g_system_timer s /\
  g_readytorun_head (pg_callback tcb result s) = g_readytorun_head s.
Proof. callback_cases s; repeat split. Qed.

(** Only the worker's TCB may get another priority. *)
Lemma pg_callback_other_priority (p : pid) :
  p <> g_pgworker s ->
  sched_priority (pg_callback tcb result s) p = sched_priority s p.
Proof.
  intros Hp. apply Nat.eqb_neq in Hp.
  callback_cases s; cbn; rewrite ?Hp; reflexivity.
Qed.

Lemma pg_callback_worker_priority (ptcb : pid) :
  g_pendingfilltcb s = Some ptcb ->
  worker_priority (pg_callback tcb result s)
  = Z.max (worker_priority s) (boost_target s ptcb).
Proof.
  intros E. unfold worker_priority, boost_target, pg_callback. rewrite E.
  destruct (hd_error (g_waitingforfill s)) as [h|].
  - destruct (Z.ltb_spec (sched_priority s ptcb) (sched_priority s h));
      match goal with |- context [?a >? ?b] =>
        destruct (Z.gtb_spec a b) end;
      cbn; rewrite ?Nat.eqb_refl; lia.
  - match goal with |- context [?a >? ?b] =>
      destruct (Z.gtb_spec a b) end;
      cbn; rewrite ?Nat.eqb_refl; lia.
Qed.

Lemma pg_callback_idle :
  g_pendingfilltcb s = None ->
  pg_callback tcb result s = kill (g_pgworker s) s.
Proof. intros E. unfold pg_callback. rewrite E. reflexivity. Qed.

Lemma pg_callback_never_lowers :
  worker_priority s <= worker_priority (pg_callback tcb result s).
Proof.
  destruct (g_pendingfilltcb s) as [ptcb|] eqn:E.
  - rewrite (pg_callback_worker_priority ptcb E). lia.
  - rewrite (pg_callback_idle E). unfold worker_priority. cbn. lia.
Qed.

Lemma pg_callback_fillresult (ptcb : pid) :
  g_pendingfilltcb s = Some ptcb ->
  g_fillresult (pg_callback tcb result s)
  = if result =? - EBUSY then - ENOSYS else result.
Proof. intros E. callback_cases s; [reflexivity .. | discriminate]. Qed.

End Callback.

(** ** Starting a fill *)

Section StartFill.

Variables (cfg : config) (hw : arch).

(** The shape of [pg_startfill] on a queue with a head: the status of
    [up_checkmapping], taken first, decides everything else. *)
Lemma pg_startfill_cons (s : state) (tcb : pid) (rest : list pid) :
  g_waitingforfill s = tcb :: rest ->
  pg_startfill cfg hw s =
    let s1 := log (EvCheckMapping tcb)
                (set_pendingfilltcb (Some tcb) (set_waitingforfill rest s)) in
    if up_checkmapping hw (events s) tcb =? OK then
      Returns (set_pendingfilltcb None (up_unblock_task (Some tcb) s1))
    else
      let s2 := log (EvAllocPage tcb) s1 in
      if fst (up_allocpage hw (events s1) tcb) =? OK then
        let vpage := snd (up_allocpage hw (events s1) tcb) in
        let s3 := log (EvFillPage tcb vpage (negb (CONFIG_PAGING_BLOCKINGFILL cfg))) s2 in
        if up_fillpage hw (events s2) tcb vpage =? OK then
          if CONFIG_PAGING_BLOCKINGFILL cfg then Returns s3
          else match CONFIG_PAGING_TIMEOUT_TICKS cfg with
               | Some _ => Returns (set_starttime (g_system_timer s3) s3)
               | None => Returns s3
               end
        else Asserts s3
      else Asserts s2.
Proof.
  intros E. unfold pg_startfill. rewrite E, dq_remfirst_cons. cbn zeta.
  cbn [events set_pendingfilltcb set_waitingforfill].
  destruct (up_checkmapping hw (events s) tcb =? OK); [reflexivity|].
  cbn [events log set_pendingfilltcb set_waitingforfill].
  destruct (up_allocpage hw (events s ++ [EvCheckMapping tcb]) tcb) as [st vpage].
  cbn [fst snd]. unfold DEBUGASSERT, ASSERT.
  destruct (st =? OK); [| reflexivity].
  cbn [events log set_pendingfilltcb set_waitingforfill].
  destruct (up_fillpage hw _ tcb vpage =? OK); reflexivity.
Qed.

Lemma pg_startfill_nil (s : state) :
  g_waitingforfill s = [] ->
  pg_startfill cfg hw s = Returns (set_pendingfilltcb None (set_waitingforfill [] s)).
Proof. intros E. unfold pg_startfill. rewrite E. reflexivity. Qed.

(** [pg_startfill] writes neither [g_fillresult] nor a priority, and takes
    exactly the head off the queue. *)
Lemma pg_startfill_frame (s : state) :
  let s' := final (pg_startfill cfg hw s) in
  g_fillresult s' = g_fillresult s /\
  sched_priority s' = sched_priority s /\
  g_pgworker s' = g_pgworker s /\
  g_readytorun_head s' = g_readytorun_head s /\
  g_system_timer s' = g_system_timer s /\
  g_waitingforfill s' = tl (g_waitingforfill s).
Proof.
  destruct (g_waitingforfill s) as [|tcb rest] eqn:E.
  - rewrite (pg_startfill_nil s E). cbn. repeat split.
  - rewrite (pg_startfill_cons s tcb rest E). cbn zeta.
    repeat match goal with
           | |- context [if ?b then _ else _] => destruct b
           | |- context [match ?o with Some _ => _ | None => _ end] => destruct o
           end; cbn; repeat split.
Qed.

End StartFill.

(** ** The worker *)

Section WorkerPass.

Variables (cfg : config) (hw : arch).

Lemma pg_fillcomplete_frame (s : state) :
  g_fillresult (pg_fillcomplete s) = g_fillresult s /\
  sched_priority (pg_fillcomplete s) = sched_priority s /\
  g_waitingforfill (pg_fillcomplete s) = g_waitingforfill s /\
  g_pendingfilltcb (pg_fillcomplete s) = g_pendingfilltcb s /\
  g_readytorun_head (pg_fillcomplete s) = g_readytorun_head s.
Proof. repeat split. Qed.

(** [pg_alldone] empties the slot and gives the running task, which is the
    worker, the default priority. *)
Lemma pg_alldone_resets (s : state) :
  g_pendingfilltcb (pg_alldone cfg s) = None /\
  g_waitingforfill (pg_alldone cfg s) = g_waitingforfill s /\
  g_fillresult (pg_alldone cfg s) = g_fillresult s /\
  sched_priority (pg_alldone cfg s) (g_readytorun_head s) = CONFIG_PAGING_DEFPRIO cfg.
Proof.
  unfold pg_alldone; cbn. rewrite Nat.eqb_refl. repeat split.
Qed.

(** The loop of lines 516-528 ends when the fuel covers the queue, and it
    ends on an assertion or with an empty queue. *)
Lemma pg_worker_while_total (fuel : nat) :
  forall s, (length (g_waitingforfill s) <= fuel)%nat ->
  exists o, pg_worker_while cfg hw fuel s = Some o /\
            g_fillresult (final o) = g_fillresult s /\
            g_readytorun_head (final o) = g_readytorun_head s /\
            g_pgworker (final o) = g_pgworker s /\
            (asserted o = false -> g_waitingforfill (final o) = []).
Proof.
  induction fuel as [|fuel IH]; intros s Hlen.
  - destruct (g_waitingforfill s) eqn:E; [| cbn in Hlen; lia].
    exists (Returns s). cbn. rewrite E. repeat split.
  - cbn [pg_worker_while].
    destruct (g_waitingforfill s) as [|tcb rest] eqn:E.
    + exists (Returns s). repeat split; auto.
    + destruct (pg_startfill_frame cfg hw s) as (Hr & _ & Hw & Hh & _ & Hq).
      destruct (pg_startfill cfg hw s) as [s1|s1]; cbn [final] in *.
      * destruct (IH (pg_fillcomplete s1)) as (o & Ho & Hr' & Hh' & Hw' & Hq').
        { cbn. rewrite Hq, E. cbn in *. lia. }
        exists o. repeat split; try assumption.
        -- rewrite Hr'. exact Hr.
        -- rewrite Hh'. exact Hh.
        -- rewrite Hw'. exact Hw.
      * exists (Asserts s1). repeat split; try assumption.
        cbn. discriminate.
Qed.

(** One pass of the worker always ends. *)
Lemma pg_worker_pass_total (s : state) :
  exists o, pg_worker_pass cfg hw s = Some o.
Proof.
  unfold pg_worker_pass, pg_worker_fillall.
  destruct (CONFIG_PAGING_BLOCKINGFILL cfg); [eexists; reflexivity|].
  destruct (pg_worker_while_total (length (g_waitingforfill s)) s (le_n _))
    as (o & Ho & _).
  rewrite Ho. destruct o; eexists; reflexivity.
Qed.

(** With [CONFIG_PAGING_BLOCKINGFILL] undefined a pass that returns leaves
    the queue and the slot empty and the running task at the default
    priority. *)
Lemma pg_worker_fillall_idle (s s' : state) :
  pg_worker_fillall cfg hw s = Some (Returns s') ->
  g_waitingforfill s' = [] /\ g_pendingfilltcb s' = None /\
  g_fillresult s' = g_fillresult s /\
  g_readytorun_head s' = g_readytorun_head s /\
  g_pgworker s' = g_pgworker s /\
  sched_priority s' (g_readytorun_head s) = CONFIG_PAGING_DEFPRIO cfg.
Proof.
  unfold pg_worker_fillall.
  destruct (pg_worker_while_total (length (g_waitingforfill s)) s (le_n _))
    as (o & Ho & Hr & Hh & Hg & Hq).
  rewrite Ho. destruct o as [s1|s1]; [| discriminate].
  intros [= <-]. cbn [final asserted] in *.
  destruct (pg_alldone_resets s1) as (Hp & Hw & Hf & Hd).
  rewrite Hw, Hf, Hp, <- Hh. cbn [pg_alldone sched_setpriority set_pendingfilltcb
    g_readytorun_head g_pgworker]. auto 10.
Qed.

(** With [CONFIG_PAGING_BLOCKINGFILL] undefined and nobody waiting, a pass
    of the worker is [pg_alldone], whatever the slot, [g_fillresult] and the
    timer hold. *)
Lemma pg_worker_pass_nonblocking_nobody_waiting (s : state) :
  CONFIG_PAGING_BLOCKINGFILL cfg = false ->
  g_waitingforfill s = [] ->
  pg_worker_pass cfg hw s = Some (Returns (pg_alldone cfg s)).
Proof.
  intros Hcfg Hq. unfold pg_worker_pass, pg_worker_fillall.
  rewrite Hcfg, Hq. cbn. rewrite Hq. reflexivity.
Qed.

(** What the text of lines 450-480 does with a result: any result but [OK]
    ends on the assertion of line 460; on [OK] the pending task is unblocked
    and then the next fill is started or, with nobody waiting, the worker
    is reset. *)
Lemma pg_worker_fillevent_completion (s : state) (ptcb : pid) :
  g_pendingfilltcb s = Some ptcb ->
  g_fillresult s <> - EBUSY ->
  pg_worker_fillevent cfg hw s =
    if g_fillresult s =? OK then
      match g_waitingforfill s with
      | _ :: _ => pg_startfill cfg hw (up_unblock_task (Some ptcb) s)
      | [] => Returns (pg_alldone cfg (up_unblock_task (Some ptcb) s))
      end
    else Asserts s.
Proof.
  intros Hp Hres. unfold pg_worker_fillevent, ASSERT, pg_fillcomplete.
  rewrite Hp. apply Z.eqb_neq in Hres. rewrite Hres. cbn [negb].
  destruct (g_fillresult s =? OK); reflexivity.
Qed.

(** The text of lines 450-510 does not write [g_fillresult]. *)
Lemma pg_worker_fillevent_fillresult (s : state) :
  g_fillresult (final (pg_worker_fillevent cfg hw s)) = g_fillresult s.
Proof.
  unfold pg_worker_fillevent, ASSERT.
  pose proof (pg_startfill_frame cfg hw s) as (H0 & _).
  pose proof (pg_startfill_frame cfg hw (pg_fillcomplete s)) as (H1 & _).
  destruct (g_pendingfilltcb s).
  - destruct (negb (g_fillresult s =? - EBUSY)).
    + destruct (g_fillresult s =? OK); [| reflexivity].
      cbn [pg_fillcomplete up_unblock_task log g_waitingforfill].
      destruct (g_waitingforfill s); [reflexivity | exact H1].
    + reflexivity.
  - destruct (g_waitingforfill s); [reflexivity | exact H0].
Qed.

End WorkerPass.

(** ** The claims about [pg_startfill] *)

(** C5.  Whenever [pg_startfill] takes a task off the queue, the call of
    [up_checkmapping] for that task is the first call it makes, before any
    page is set aside and before any fill is started.  When the check says
    that the page is mapped already, [pg_startfill] returns after exactly two
    calls, the check and [up_unblock_task] of the task: no [up_allocpage], no
    [up_fillpage]; the slot is empty again and the rest of the queue is
    waiting. *)
Theorem pg_startfill_checks_mapping_first
    (cfg : config) (hw : arch) (s : state) (tcb : pid) (rest : list pid) :
  g_waitingforfill s = tcb :: rest ->
  (exists later,
     events (final (pg_startfill cfg hw s))
     = events s ++ EvCheckMapping tcb :: later) /\
  (up_checkmapping hw (events s) tcb = OK ->
   exists s',
     pg_startfill cfg hw s = Returns s' /\
     events s' = events s ++ [EvCheckMapping tcb; EvUnblock (Some tcb)] /\
     g_pendingfilltcb s' = None /\
     g_waitingforfill s' = rest).
Proof.
  intros E. rewrite (pg_startfill_cons cfg hw s tcb rest E). cbn zeta. split.
  - repeat match goal with
           | |- context [if ?b then _ else _] => destruct b
           | |- context [match ?o with Some _ => _ | None => _ end] => destruct o
           end; cbn; rewrite <- ?app_assoc; cbn; eexists; reflexivity.
  - intros Hmapped. rewrite Hmapped. cbn. eexists. split; [reflexivity|].
    cbn. rewrite <- app_assoc. repeat split.
Qed.

Lemma pg_startfill_checks_mapping_first_witness :
  exists s',
    pg_startfill cfg_nonblocking hw_mapped
      (example_state None [2%nat; 1%nat] 0 10) = Returns s' /\
    events s' = [EvCheckMapping 2%nat; EvUnblock (Some 2%nat)] /\
    g_pendingfilltcb s' = None /\
    g_waitingforfill s' = [1%nat].
Proof.
  exact (proj2 (pg_startfill_checks_mapping_first cfg_nonblocking hw_mapped
                  (example_state None [2%nat; 1%nat] 0 10) 2%nat [1%nat] eq_refl)
               eq_refl).
Defined.

(** C8.  When the page is not mapped and [up_allocpage] does not return [OK],
    [pg_startfill] ends on the assertion after exactly two calls, the check
    and [up_allocpage]: [up_fillpage] is not called and the task is not
    unblocked.  A pass of the worker that starts this fill from the idle
    state ends on the same assertion. *)
Theorem pg_startfill_allocpage_failure_asserts
    (cfg : config) (hw : arch) (s : state) (tcb : pid) (rest : list pid) :
  g_waitingforfill s = tcb :: rest ->
  up_checkmapping hw (events s) tcb <> OK ->
  fst (up_allocpage hw (events s ++ [EvCheckMapping tcb]) tcb) <> OK ->
  exists s',
    pg_startfill cfg hw s = Asserts s' /\
    events s' = events s ++ [EvCheckMapping tcb; EvAllocPage tcb] /\
    g_pendingfilltcb s' = Some tcb /\
    (g_pendingfilltcb s = None -> pg_worker_pass cfg hw s = Some (Asserts s')).
Proof.
  intros E Hmiss Halloc.
  assert (Hstart : pg_startfill cfg hw s
                   = Asserts (log (EvAllocPage tcb) (log (EvCheckMapping tcb)
                       (set_pendingfilltcb (Some tcb) (set_waitingforfill rest s))))).
  { rewrite (pg_startfill_cons cfg hw s tcb rest E). cbn zeta.
    apply Z.eqb_neq in Hmiss. rewrite Hmiss.
    cbn [events log set_pendingfilltcb set_waitingforfill].
    apply Z.eqb_neq in Halloc. rewrite Halloc. reflexivity. }
  eexists. split; [exact Hstart|]. split; [| split].
  - cbn. rewrite <- app_assoc. reflexivity.
  - reflexivity.
  - intros Hidle. unfold pg_worker_pass, pg_worker_fillall, pg_worker_fillevent.
    rewrite Hidle, E. cbn [length pg_worker_while]. rewrite E, Hstart.
    destruct (CONFIG_PAGING_BLOCKINGFILL cfg); reflexivity.
Qed.

Lemma pg_startfill_allocpage_failure_asserts_witness :
  exists s',
    pg_startfill cfg_nonblocking hw_nopage
      (example_state None [2%nat; 1%nat] 0 10) = Asserts s' /\
    events s' = [EvCheckMapping 2%nat; EvAllocPage 2%nat] /\
    g_pendingfilltcb s' = Some 2%nat /\
    pg_worker_pass cfg_nonblocking hw_nopage
      (example_state None [2%nat; 1%nat] 0 10) = Some (Asserts s').
Proof.
  destruct (pg_startfill_allocpage_failure_asserts cfg_nonblocking hw_nopage
              (example_state None [2%nat; 1%nat] 0 10) 2%nat [1%nat] eq_refl)
    as (s' & Hstart & Hev & Hp & Hpass).
  - vm_compute. discriminate.
  - vm_compute. discriminate.
  - exists s'. repeat split; try assumption. exact (Hpass eq_refl).
Defined.

(** C10.  [pg_startfill] does not write [g_fillresult], and neither do
    [pg_fillcomplete] and [pg_alldone].  When the worker finds the fill of
    the pending task completed with [OK] and another task waiting, it goes
    on to [pg_startfill] with [g_fillresult] still [OK], and [g_fillresult]
    is still [OK], not [-EBUSY], when [pg_startfill] is over. *)
Theorem pg_startfill_keeps_fillresult
    (cfg : config) (hw : arch) (s : state) :
  g_fillresult (final (pg_startfill cfg hw s)) = g_fillresult s /\
  g_fillresult (pg_fillcomplete s) = g_fillresult s /\
  g_fillresult (pg_alldone cfg s) = g_fillresult s /\
  (forall ptcb tcb rest,
     g_pendingfilltcb s = Some ptcb ->
     g_fillresult s = OK ->
     g_waitingforfill s = tcb :: rest ->
     pg_worker_fillevent cfg hw s = pg_startfill cfg hw (pg_fillcomplete s) /\
     g_fillresult (pg_fillcomplete s) = OK /\
     g_fillresult (final (pg_worker_fillevent cfg hw s)) = OK /\
     g_fillresult (final (pg_worker_fillevent cfg hw s)) <> - EBUSY).
Proof.
  split; [apply pg_startfill_frame|].
  split; [reflexivity|]. split; [reflexivity|].
  intros ptcb tcb rest Hp Hok Hq.
  assert (Hstep : pg_worker_fillevent cfg hw s
                  = pg_startfill cfg hw (pg_fillcomplete s)).
  { unfold pg_worker_fillevent, ASSERT. rewrite Hp, Hok.
    cbn [pg_fillcomplete up_unblock_task log g_waitingforfill].
    rewrite Hq. reflexivity. }
  split; [exact Hstep|]. split; [exact Hok|].
  rewrite pg_worker_fillevent_fillresult, Hok.
  split; [reflexivity|]. unfold OK, EBUSY. lia.
Qed.

Lemma pg_startfill_keeps_fillresult_witness :
  pg_worker_fillevent cfg_blocking hw_fills
    (example_state (Some 1%nat) [2%nat] OK 20)
  = pg_startfill cfg_blocking hw_fills
      (pg_fillcomplete (example_state (Some 1%nat) [2%nat] OK 20)) /\
  g_fillresult (pg_fillcomplete (example_state (Some 1%nat) [2%nat] OK 20)) = OK /\
  g_fillresult (final (pg_worker_fillevent cfg_blocking hw_fills
                         (example_state (Some 1%nat) [2%nat] OK 20))) = OK /\
  g_fillresult (final (pg_worker_fillevent cfg_blocking hw_fills
                         (example_state (Some 1%nat) [2%nat] OK 20))) <> - EBUSY.
Proof.
  exact (proj2 (proj2 (proj2
           (pg_startfill_keeps_fillresult cfg_blocking hw_fills
              (example_state (Some 1%nat) [2%nat] OK 20))))
           1%nat 2%nat [] eq_refl eq_refl eq_refl).
Defined.

(** ** The claims about [pg_callback] *)

(** C7.  Every call of [pg_callback] sends the signal to the worker: it is
    the last call the callback makes, whatever the slot and the queue hold.
    When no fill is pending the signal is all the callback does:
    [g_fillresult], the queue, the slot and every priority are as before. *)
Theorem pg_callback_always_signals (tcb : pid) (result : Z) (s : state) :
  events (pg_callback tcb result s) = events s ++ [EvKill (g_pgworker s)] /\
  (g_pendingfilltcb s = None ->
   pg_callback tcb result s = kill (g_pgworker s) s /\
   g_fillresult (pg_callback tcb result s) = g_fillresult s /\
   g_waitingforfill (pg_callback tcb result s) = g_waitingforfill s /\
   g_pendingfilltcb (pg_callback tcb result s) = None /\
   sched_priority (pg_callback tcb result s) = sched_priority s /\
   worker_priority (pg_callback tcb result s) = worker_priority s).
Proof.
  split; [apply pg_callback_events|].
  intros Hidle. rewrite (pg_callback_idle tcb result s Hidle).
  repeat split. exact Hidle.
Qed.

Lemma pg_callback_always_signals_witness :
  pg_callback 1%nat (- 5) (example_state None [2%nat] OK 20)
  = kill 0%nat (example_state None [2%nat] OK 20) /\
  g_fillresult (pg_callback 1%nat (- 5) (example_state None [2%nat] OK 20)) = OK.
Proof.
  pose proof (proj2 (pg_callback_always_signals 1%nat (- 5)
                       (example_state None [2%nat] OK 20)) eq_refl)
    as (Honly & Hres & _).
  split; [exact Honly | exact Hres].
Defined.

(** C9 as the claim states it fails: with task 3 (priority 30) pending and
    the worker at priority 10, the callback also writes the worker's
    priority, which becomes 30. *)
Lemma pg_callback_writes_priority :
  ~ writes_only_result_and_signal
      (example_state (Some 3%nat) [] (- EBUSY) 10)
      (pg_callback 3%nat OK (example_state (Some 3%nat) [] (- EBUSY) 10)).
Proof.
  intros (_ & _ & _ & _ & _ & _ & Hprio & _).
  specialize (Hprio 0%nat). vm_compute in Hprio. discriminate.
Qed.

(** C9, amended.  Every call of [pg_callback] leaves [g_waitingforfill] and
    [g_pendingfilltcb] as they are.  Its writes are [g_fillresult], the
    worker's priority, which is raised to the higher of the priorities of the
    pending task and of the head of the queue when that is above it and is
    never lowered, and the signal to the worker. *)
Theorem pg_callback_write_surface (tcb : pid) (result : Z) (s : state) :
  let s' := pg_callback tcb result s in
  g_waitingforfill s' = g_waitingforfill s /\
  g_pendingfilltcb s' = g_pendingfilltcb s /\
  g_pgworker s' = g_pgworker s /\
  g_starttime s' = g_starttime s /\
  g_system_timer s' = g_system_timer s /\
  g_readytorun_head s' = g_readytorun_head s /\
  (forall p, p <> g_pgworker s -> sched_priority s' p = sched_priority s p) /\
  worker_priority s' =
    match g_pendingfilltcb s with
    | Some ptcb => Z.max (worker_priority s) (boost_target s ptcb)
    | None => worker_priority s
    end /\
  worker_priority s <= worker_priority s' /\
  events s' = events s ++ [EvKill (g_pgworker s)].
Proof.
  intros s'. unfold s'.
  destruct (pg_callback_globals tcb result s) as (Hw & Hst & Htm & Hrd).
  split; [apply pg_callback_waitingforfill|].
  split; [apply pg_callback_pendingfilltcb|].
  repeat (split; [assumption|]).
  split; [intros p Hp; apply pg_callback_other_priority; exact Hp|].
  split.
  - destruct (g_pendingfilltcb s) as [ptcb|] eqn:E.
    + apply pg_callback_worker_priority. exact E.
    + rewrite (pg_callback_idle tcb result s E). reflexivity.
  - split; [apply pg_callback_never_lowers | apply pg_callback_events].
Qed.

(** ** The worker-priority invariant *)

Section PriorityInvariant.

Variables (cfg : config) (hw : arch).

(** After a callback with a fill pending the worker runs at least at the
    priority of the pending task and of the head waiter. *)
Lemma pg_callback_establishes_priority
    (tcb : pid) (result : Z) (s : state) (ptcb : pid) :
  g_pendingfilltcb s = Some ptcb ->
  let s' := pg_callback tcb result s in
  sched_priority s' ptcb <= worker_priority s' /\
  (forall h, hd_error (g_waitingforfill s') = Some h ->
             sched_priority s' h <= worker_priority s').
Proof.
  intros Hp. cbv zeta.
  pose proof (pg_callback_worker_priority tcb result s ptcb Hp) as Hw.
  pose proof (proj1 (pg_callback_globals tcb result s)) as Hg.
  assert (Hle : forall p, sched_priority s p <= boost_target s ptcb ->
                          sched_priority (pg_callback tcb result s) p
                          <= worker_priority (pg_callback tcb result s)).
  { intros p Hb. destruct (Nat.eq_dec p (g_pgworker s)) as [->|Hne].
    - unfold worker_priority. rewrite Hg. lia.
    - rewrite (pg_callback_other_priority tcb result s p Hne), Hw. lia. }
  split.
  - apply Hle. unfold boost_target.
    destruct (hd_error (g_waitingforfill s)); lia.
  - intros h Hh. rewrite pg_callback_waitingforfill in Hh.
    apply Hle. unfold boost_target. rewrite Hh. lia.
Qed.

(** The callback keeps the invariant. *)
Lemma pg_callback_keeps_invariant (tcb : pid) (result : Z) (s : state) :
  priority_invariant cfg s ->
  priority_invariant cfg (pg_callback tcb result s).
Proof.
  intros (Hpend & Hhead & Hidle).
  destruct (g_pendingfilltcb s) as [ptcb|] eqn:E in |- *.
  - destruct (pg_callback_establishes_priority tcb result s ptcb E) as (H1 & H2).
    repeat split.
    + intros p Hp. rewrite pg_callback_pendingfilltcb, E in Hp.
      injection Hp as <-. exact H1.
    + exact H2.
    + intros Hp. rewrite pg_callback_pendingfilltcb, E in Hp. discriminate.
  - rewrite (pg_callback_idle tcb result s E). repeat split.
    + intros p Hp. cbn in Hp. rewrite E in Hp. discriminate.
    + exact Hhead.
    + intros _. exact (Hidle E).
Qed.

(** With [CONFIG_PAGING_BLOCKINGFILL] undefined a pass of the worker that
    returns establishes the invariant. *)
Lemma pg_worker_fillall_invariant (s s' : state) :
  worker_runs s ->
  pg_worker_fillall cfg hw s = Some (Returns s') ->
  priority_invariant cfg s' /\ worker_runs s'.
Proof.
  unfold worker_runs. intros Hrun Hpass.
  destruct (pg_worker_fillall_idle cfg hw s s' Hpass)
    as (Hq & Hp & _ & Hh & Hw & Hd).
  split; [| congruence]. repeat split.
  - intros p Hp'. rewrite Hp in Hp'. discriminate.
  - intros p Hhd. rewrite Hq in Hhd. discriminate.
  - intros _ _. unfold worker_priority. rewrite Hw, <- Hrun. exact Hd.
Qed.

(** With [CONFIG_PAGING_BLOCKINGFILL] undefined the invariant is kept by
    every step of the coordinator, and so it holds in every state the
    coordinator reaches from a state in which it holds. *)
Lemma priority_invariant_step (s s' : state) :
  CONFIG_PAGING_BLOCKINGFILL cfg = false ->
  coordinator_step cfg hw s s' ->
  priority_invariant cfg s /\ worker_runs s ->
  priority_invariant cfg s' /\ worker_runs s'.
Proof.
  intros Hcfg Hstep (Hinv & Hrun). destruct Hstep as [s s' Hpass|tcb result s|ticks s].
  - unfold pg_worker_pass in Hpass. rewrite Hcfg in Hpass.
    exact (pg_worker_fillall_invariant s s' Hrun Hpass).
  - split; [apply pg_callback_keeps_invariant; exact Hinv|].
    unfold worker_runs in *.
    destruct (pg_callback_globals tcb result s) as (Hw & _ & _ & Hh).
    congruence.
  - split; [exact Hinv | exact Hrun].
Qed.

(** X14.  With [CONFIG_PAGING_BLOCKINGFILL] undefined the worker-priority
    invariant is an invariant of the coordinator: if it holds in a state in
    which the worker is the running task, it holds in every state reached
    from there by passes of the worker that return, completion callbacks and
    timer ticks. *)
Lemma priority_invariant_reachable (s s' : state) :
  CONFIG_PAGING_BLOCKINGFILL cfg = false ->
  clos_refl_trans state (coordinator_step cfg hw) s s' ->
  priority_invariant cfg s /\ worker_runs s ->
  priority_invariant cfg s' /\ worker_runs s'.
Proof.
  intros Hcfg Hreach. induction Hreach as [s s' Hstep|s|s s1 s' _ IH1 _ IH2].
  - exact (priority_invariant_step s s' Hcfg Hstep).
  - auto.
  - auto.
Qed.


End PriorityInvariant.

(** ** The worker, configuration by configuration *)


(** C2 at a failing input.  [CONFIG_PAGING_BLOCKINGFILL] is undefined.
    (1) The worker wakes with the fill of task 1 pending and the result
    [-ENOSYS]: the pass returns, no assertion, and task 1 is not unblocked.
    (2) From the idle state with task 1 waiting, the first pass starts the
    fill with the callback, unblocks task 1 at once and empties the slot, so
    that the callback that reports the failure [-5] finds no fill pending and
    drops the result; the next pass returns as well. *)
Theorem pg_worker_nonblocking_skips_fillresult :
  (exists s',
     pg_worker_pass cfg_nonblocking hw_fills failed_fill = Some (Returns s') /\
     events s' = [] /\
     g_pendingfilltcb s' = None /\
     g_fillresult s' = - ENOSYS) /\
  (exists s1 s2,
     pg_worker_pass cfg_nonblocking hw_fills one_waiting = Some (Returns s1) /\
     events s1 = [EvCheckMapping 1%nat; EvAllocPage 1%nat;
                  EvFillPage 1%nat 4096 true; EvUnblock (Some 1%nat)] /\
     g_pendingfilltcb s1 = None /\
     g_fillresult (pg_callback 1%nat (- 5) s1) = OK /\
     pg_worker_pass cfg_nonblocking hw_fills (pg_callback 1%nat (- 5) s1)
     = Some (Returns s2) /\
     events s2 = events s1 ++ [EvKill 0%nat]).
Proof.
  split.
  - eexists. split; [vm_compute; reflexivity|]. repeat split.
  - eexists. eexists. split; [vm_compute; reflexivity|].
    split; [vm_compute; reflexivity|]. split; [vm_compute; reflexivity|].
    split; [vm_compute; reflexivity|]. split; vm_compute; reflexivity.
Qed.

(** ** More about [pg_startfill] *)

Section StartFillOutcomes.

Variables (cfg : config) (hw : arch).

(** The two ways in which [pg_startfill] returns on a queue with a head. *)
Lemma pg_startfill_returns (s s1 : state) (tcb : pid) (rest : list pid) :
  g_waitingforfill s = tcb :: rest ->
  pg_startfill cfg hw s = Returns s1 ->
  g_waitingforfill s1 = rest /\
  ((up_checkmapping hw (events s) tcb = OK /\
    g_pendingfilltcb s1 = None /\
    events s1 = events s ++ [EvCheckMapping tcb; EvUnblock (Some tcb)]) \/
   (up_checkmapping hw (events s) tcb <> OK /\
    g_pendingfilltcb s1 = Some tcb /\
    exists vpage,
      events s1 = events s ++ [EvCheckMapping tcb; EvAllocPage tcb;
                               EvFillPage tcb vpage
                                 (negb (CONFIG_PAGING_BLOCKINGFILL cfg))])).
Proof.
  intros E. rewrite (pg_startfill_cons cfg hw s tcb rest E). cbn zeta.
  destruct (Z.eqb_spec (up_checkmapping hw (events s) tcb) OK) as [Hm|Hm].
  - intros [= <-]. split; [reflexivity|]. left.
    repeat split; [exact Hm|]. cbn. rewrite <- app_assoc. reflexivity.
  - destruct (fst (up_allocpage hw _ tcb) =? OK); [| discriminate].
    destruct (up_fillpage hw _ tcb _ =? OK); [| discriminate].
    assert (forall s3, Returns s3 = Returns s1 -> s3 = s1) as Hinj
      by (intros s3 [= ->]; reflexivity).
    intros Hret.
    assert (Hs1 : g_waitingforfill s1 = rest /\
                  g_pendingfilltcb s1 = Some tcb /\
                  events s1 = ((events s ++ [EvCheckMapping tcb]) ++ [EvAllocPage tcb])
                      ++ [EvFillPage tcb
                            (snd (up_allocpage hw (events s ++ [EvCheckMapping tcb]) tcb))
                            (negb (CONFIG_PAGING_BLOCKINGFILL cfg))]).
    { destruct (CONFIG_PAGING_BLOCKINGFILL cfg);
        [| destruct (CONFIG_PAGING_TIMEOUT_TICKS cfg)];
        apply Hinj in Hret; subst s1; repeat split. }
    destruct Hs1 as (Hq & Hp & Hev). split; [exact Hq|]. right.
    split; [exact Hm|]. split; [exact Hp|]. eexists.
    rewrite Hev, <- !app_assoc. reflexivity.
Qed.

(** Whatever its outcome, [pg_startfill] only adds to the log, calls
    [up_checkmapping] and [up_fillpage] at most once and takes the head off
    the queue. *)
Lemma pg_startfill_delta (s : state) :
  exists delta,
    events (final (pg_startfill cfg hw s)) = events s ++ delta /\
    (length (checkmapping_calls delta) <= 1)%nat /\
    (length (fillpage_calls delta) <= 1)%nat.
Proof.
  destruct (g_waitingforfill s) as [|tcb rest] eqn:E.
  - rewrite (pg_startfill_nil cfg hw s E). exists []. cbn.
    rewrite app_nil_r. repeat split; lia.
  - rewrite (pg_startfill_cons cfg hw s tcb rest E). cbn zeta.
    repeat match goal with
           | |- context [if ?b then _ else _] => destruct b
           | |- context [match ?o with Some _ => _ | None => _ end] => destruct o
           end; cbn; rewrite <- ?app_assoc; cbn;
      eexists; (split; [reflexivity|]); cbn; split; lia.
Qed.

End StartFillOutcomes.

(** X7.  When the page is not mapped, a page is set aside and [up_fillpage]
    does not return [OK], [pg_startfill] ends on the assertion after the
    three calls check, [up_allocpage] and [up_fillpage]: the task is not
    unblocked, it stays in [g_pendingfilltcb], and [g_starttime] is not
    written. *)
Theorem pg_startfill_fillpage_failure_asserts
    (cfg : config) (hw : arch) (s : state) (tcb : pid) (rest : list pid) (vpage : Z) :
  g_waitingforfill s = tcb :: rest ->
  up_checkmapping hw (events s) tcb <> OK ->
  up_allocpage hw (events s ++ [EvCheckMapping tcb]) tcb = (OK, vpage) ->
  up_fillpage hw (events s ++ [EvCheckMapping tcb; EvAllocPage tcb]) tcb vpage <> OK ->
  exists s',
    pg_startfill cfg hw s = Asserts s' /\
    events s' = events s ++ [EvCheckMapping tcb; EvAllocPage tcb;
                             EvFillPage tcb vpage
                               (negb (CONFIG_PAGING_BLOCKINGFILL cfg))] /\
    unblocked_tasks (events s') = unblocked_tasks (events s) /\
    g_pendingfilltcb s' = Some tcb /\
    g_starttime s' = g_starttime s.
Proof.
  intros E Hmiss Halloc Hfill.
  rewrite (pg_startfill_cons cfg hw s tcb rest E). cbn zeta.
  apply Z.eqb_neq in Hmiss. rewrite Hmiss.
  cbn [events log set_pendingfilltcb set_waitingforfill].
  rewrite Halloc. cbn [fst snd]. rewrite Z.eqb_refl.
  rewrite <- app_assoc. cbn [app].
  apply Z.eqb_neq in Hfill. rewrite Hfill.
  eexists. split; [reflexivity|]. cbn. rewrite <- !app_assoc. cbn.
  repeat split. unfold unblocked_tasks. rewrite flat_map_app. cbn.
  apply app_nil_r.
Qed.

Lemma pg_startfill_fillpage_failure_asserts_witness :
  exists s',
    pg_startfill cfg_nonblocking_timeout hw_nofill two_waiting = Asserts s' /\
    events s' = [EvCheckMapping 2%nat; EvAllocPage 2%nat;
                 EvFillPage 2%nat 4096 true] /\
    unblocked_tasks (events s') = [] /\
    g_pendingfilltcb s' = Some 2%nat /\
    g_starttime s' = 0.
Proof.
  apply (pg_startfill_fillpage_failure_asserts cfg_nonblocking_timeout hw_nofill
           two_waiting 2%nat [1%nat] 4096 eq_refl).
  - vm_compute. discriminate.
  - reflexivity.
  - vm_compute. discriminate.
Defined.

(** X8.  When [pg_startfill] returns, the queue has lost its head, and
    [g_pendingfilltcb] holds that head exactly when its page was not mapped:
    the slot is empty after an empty queue and after a page that was mapped
    already.  A fill that was pending before is forgotten either way. *)
Theorem pg_startfill_pending_when_fill_started
    (cfg : config) (hw : arch) (s s' : state) :
  pg_startfill cfg hw s = Returns s' ->
  g_waitingforfill s' = tl (g_waitingforfill s) /\
  g_pendingfilltcb s' =
    match g_waitingforfill s with
    | [] => None
    | tcb :: _ =>
        if up_checkmapping hw (events s) tcb =? OK then None else Some tcb
    end.
Proof.
  destruct (g_waitingforfill s) as [|tcb rest] eqn:E.
  - rewrite (pg_startfill_nil cfg hw s E). intros [= <-]. split; reflexivity.
  - intros Hret.
    destruct (pg_startfill_returns cfg hw s s' tcb rest E Hret)
      as (Hq & [(Hm & Hp & _) | (Hm & Hp & _)]).
    + rewrite Hm, Z.eqb_refl. split; assumption.
    + apply Z.eqb_neq in Hm. rewrite Hm. split; assumption.
Qed.

Lemma pg_startfill_pending_when_fill_started_witness :
  g_waitingforfill (final (pg_startfill cfg_blocking hw_mapped_2
                             (example_state (Some 3%nat) [2%nat; 1%nat] OK 30)))
  = [1%nat] /\
  g_pendingfilltcb (final (pg_startfill cfg_blocking hw_mapped_2
                             (example_state (Some 3%nat) [2%nat; 1%nat] OK 30)))
  = None.
Proof.
  exact (pg_startfill_pending_when_fill_started cfg_blocking hw_mapped_2
           (example_state (Some 3%nat) [2%nat; 1%nat] OK 30) _ eq_refl).
Defined.

(** ** More about a pass of the worker *)

Section PassOutcomes.

Variables (cfg : config) (hw : arch).

Lemma checkmapping_calls_app (a b : list event) :
  checkmapping_calls (a ++ b) = checkmapping_calls a ++ checkmapping_calls b.
Proof. apply flat_map_app. Qed.

Lemma unblocked_tasks_app (a b : list event) :
  unblocked_tasks (a ++ b) = unblocked_tasks a ++ unblocked_tasks b.
Proof. apply flat_map_app. Qed.

(** One turn of the loop of lines 516-528 that returns: the head is checked
    once and unblocked once, after its fill was started or because its page
    was mapped. *)
Lemma pg_worker_while_turn (s s1 : state) (tcb : pid) (rest : list pid) :
  g_waitingforfill s = tcb :: rest ->
  pg_startfill cfg hw s = Returns s1 ->
  g_waitingforfill (pg_fillcomplete s1) = rest /\
  exists delta,
    events (pg_fillcomplete s1) = events s ++ delta /\
    checkmapping_calls delta = [tcb] /\
    unblocked_tasks delta = [tcb].
Proof.
  intros E Hret.
  destruct (pg_startfill_returns cfg hw s s1 tcb rest E Hret)
    as (Hq & [(_ & Hp & Hev) | (_ & Hp & vpage & Hev)]);
    (split; [exact Hq|]); unfold pg_fillcomplete, up_unblock_task;
    cbn [log events]; rewrite Hp, Hev, <- app_assoc;
    eexists; (split; [reflexivity|]); split; reflexivity.
Qed.

(** The loop serves the queue in its order. *)
Lemma pg_worker_while_serves (fuel : nat) :
  forall s s', pg_worker_while cfg hw fuel s = Some (Returns s') ->
  exists delta,
    events s' = events s ++ delta /\
    checkmapping_calls delta = g_waitingforfill s /\
    unblocked_tasks delta = g_waitingforfill s.
Proof.
  induction fuel as [|fuel IH]; intros s s'; cbn [pg_worker_while];
    destruct (g_waitingforfill s) as [|tcb rest] eqn:E; try discriminate;
    try (intros [= <-]; exists []; rewrite app_nil_r; repeat split).
  destruct (pg_startfill cfg hw s) as [s1|s1] eqn:Hstart; [| discriminate].
  intros Hloop.
  destruct (pg_worker_while_turn s s1 tcb rest E Hstart) as (Hq & d1 & Hev1 & Hc1 & Hu1).
  destruct (IH _ _ Hloop) as (d2 & Hev2 & Hc2 & Hu2).
  exists (d1 ++ d2). rewrite Hev2, Hev1, app_assoc.
  rewrite checkmapping_calls_app, unblocked_tasks_app, Hc1, Hu1, Hc2, Hu2, Hq.
  repeat split.
Qed.

(** The loop only adds to the log and writes no priority. *)
Lemma pg_worker_while_frame (fuel : nat) :
  forall s o, pg_worker_while cfg hw fuel s = Some o ->
  sched_priority (final o) = sched_priority s /\
  exists delta, events (final o) = events s ++ delta.
Proof.
  induction fuel as [|fuel IH]; intros s o; cbn [pg_worker_while];
    destruct (g_waitingforfill s) as [|tcb rest] eqn:E; try discriminate;
    try (intros [= <-]; split; [reflexivity | exists []; apply eq_sym, app_nil_r]).
  destruct (pg_startfill_frame cfg hw s) as (_ & Hprio & _).
  destruct (pg_startfill_delta cfg hw s) as (d1 & Hev1 & _).
  destruct (pg_startfill cfg hw s) as [s1|s1]; cbn [final] in *.
  - intros Hloop. destruct (IH _ _ Hloop) as (Hprio2 & d2 & Hev2).
    split; [rewrite Hprio2; exact Hprio|].
    exists (d1 ++ [EvUnblock (g_pendingfilltcb s1)] ++ d2).
    rewrite Hev2. cbn. rewrite Hev1, <- !app_assoc. reflexivity.
  - intros [= <-]. split; [exact Hprio | exists d1; exact Hev1].
Qed.

End PassOutcomes.

(** X1.  With [CONFIG_PAGING_BLOCKINGFILL] undefined every pass of the
    worker comes to an end, on an assertion of [pg_startfill] or by
    returning to [usleep]; when it returns, nobody is waiting any more, no
    fill is pending, the running task has the default priority and
    [g_fillresult] was not touched. *)
Theorem pg_worker_pass_drains_queue (cfg : config) (hw : arch) (s : state) :
  CONFIG_PAGING_BLOCKINGFILL cfg = false ->
  exists o,
    pg_worker_pass cfg hw s = Some o /\
    (asserted o = false ->
     g_waitingforfill (final o) = [] /\
     g_pendingfilltcb (final o) = None /\
     sched_priority (final o) (g_readytorun_head s) = CONFIG_PAGING_DEFPRIO cfg /\
     g_fillresult (final o) = g_fillresult s).
Proof.
  intros Hcfg. destruct (pg_worker_pass_total cfg hw s) as (o & Ho).
  exists o. split; [exact Ho|]. intros Hret.
  destruct o as [s'|s']; [| discriminate].
  unfold pg_worker_pass in Ho. rewrite Hcfg in Ho.
  destruct (pg_worker_fillall_idle cfg hw s s' Ho) as (Hq & Hp & Hr & _ & _ & Hd).
  cbn [final]. auto.
Qed.

Lemma pg_worker_pass_drains_queue_witness :
  exists o,
    pg_worker_pass cfg_nonblocking hw_mapped_2
      (example_state (Some 3%nat) [2%nat; 1%nat] (- 5) 30) = Some o /\
    (asserted o = false ->
     g_waitingforfill (final o) = [] /\
     g_pendingfilltcb (final o) = None /\
     sched_priority (final o) 0%nat = 10 /\
     g_fillresult (final o) = - 5).
Proof.
  exact (pg_worker_pass_drains_queue cfg_nonblocking hw_mapped_2
           (example_state (Some 3%nat) [2%nat; 1%nat] (- 5) 30) eq_refl).
Defined.

(** X2.  With [CONFIG_PAGING_BLOCKINGFILL] undefined a pass that returns has
    served the queue in its order: [up_checkmapping] was called once for
    every waiting task, and every waiting task was unblocked once, both in
    the order of [g_waitingforfill]. *)
Theorem pg_worker_pass_serves_in_queue_order
    (cfg : config) (hw : arch) (s s' : state) :
  CONFIG_PAGING_BLOCKINGFILL cfg = false ->
  pg_worker_pass cfg hw s = Some (Returns s') ->
  exists delta,
    events s' = events s ++ delta /\
    checkmapping_calls delta = g_waitingforfill s /\
    unblocked_tasks delta = g_waitingforfill s.
Proof.
  intros Hcfg. unfold pg_worker_pass, pg_worker_fillall. rewrite Hcfg.
  destruct (pg_worker_while cfg hw (length (g_waitingforfill s)) s)
    as [[s1|s1]|] eqn:Hloop; try discriminate.
  intros [= <-]. exact (pg_worker_while_serves cfg hw _ s s1 Hloop).
Qed.

Lemma pg_worker_pass_serves_in_queue_order_witness :
  exists delta,
    events (pass_state cfg_nonblocking hw_mapped_2 two_waiting) = [] ++ delta /\
    checkmapping_calls delta = [2%nat; 1%nat] /\
    unblocked_tasks delta = [2%nat; 1%nat].
Proof.
  apply (pg_worker_pass_serves_in_queue_order cfg_nonblocking hw_mapped_2
           two_waiting (pass_state cfg_nonblocking hw_mapped_2 two_waiting) eq_refl).
  vm_compute. reflexivity.
Defined.

(** X3.  With [CONFIG_PAGING_BLOCKINGFILL] undefined, when the page of the
    head waiter is mapped already, [pg_startfill] unblocks the task and
    empties the slot, and the loop goes on to [pg_fillcomplete], which calls
    [up_unblock_task] with the [NULL] it finds in [g_pendingfilltcb]. *)
Theorem pg_worker_pass_unblocks_null_after_mapped_page
    (cfg : config) (hw : arch) (s : state) (tcb : pid) (rest : list pid) :
  CONFIG_PAGING_BLOCKINGFILL cfg = false ->
  g_waitingforfill s = tcb :: rest ->
  up_checkmapping hw (events s) tcb = OK ->
  exists o later,
    pg_worker_pass cfg hw s = Some o /\
    events (final o) = events s ++ [EvCheckMapping tcb; EvUnblock (Some tcb);
                                    EvUnblock None] ++ later.
Proof.
  intros Hcfg E Hm. unfold pg_worker_pass, pg_worker_fillall.
  rewrite Hcfg, E. cbn [length pg_worker_while]. rewrite E.
  rewrite (pg_startfill_cons cfg hw s tcb rest E). cbn zeta.
  rewrite Hm, Z.eqb_refl.
  match goal with |- context [pg_worker_while cfg hw _ ?s1] =>
    destruct (pg_worker_while_total cfg hw (length rest) s1 (le_n _))
      as (o & Ho & _);
    destruct (pg_worker_while_frame cfg hw _ _ _ Ho) as (_ & later & Hev)
  end.
  rewrite Ho. cbn in Hev. rewrite <- !app_assoc in Hev. cbn in Hev.
  destruct o as [s'|s']; eexists; exists later; (split; [reflexivity|]);
    cbn; exact Hev.
Qed.

Lemma pg_worker_pass_unblocks_null_after_mapped_page_witness :
  exists o later,
    pg_worker_pass cfg_nonblocking hw_mapped_2 two_waiting = Some o /\
    events (final o) = [] ++ [EvCheckMapping 2%nat; EvUnblock (Some 2%nat);
                              EvUnblock None] ++ later.
Proof.
  exact (pg_worker_pass_unblocks_null_after_mapped_page cfg_nonblocking
           hw_mapped_2 two_waiting 2%nat [1%nat] eq_refl eq_refl eq_refl).
Defined.

(** X4.  With [CONFIG_PAGING_BLOCKINGFILL] undefined, the configuration that
    compiles [pg_callback], no result of a fill is ever recorded: from a
    state with no fill pending, whatever passes of the worker, callbacks and
    timer ticks follow, no fill is pending when the worker sleeps and
    [g_fillresult] keeps its value. *)
Theorem pg_worker_nonblocking_never_records_result
    (cfg : config) (hw : arch) (s s' : state) :
  CONFIG_PAGING_BLOCKINGFILL cfg = false ->
  clos_refl_trans state (coordinator_step cfg hw) s s' ->
  g_pendingfilltcb s = None ->
  g_pendingfilltcb s' = None /\ g_fillresult s' = g_fillresult s.
Proof.
  intros Hcfg Hreach.
  induction Hreach as [s s' Hstep|s|s s1 s' _ IH1 _ IH2]; intros Hidle.
  - destruct Hstep as [s s' Hpass|tcb result s|ticks s].
    + unfold pg_worker_pass in Hpass. rewrite Hcfg in Hpass.
      destruct (pg_worker_fillall_idle cfg hw s s' Hpass) as (_ & Hp & Hr & _).
      split; assumption.
    + rewrite (pg_callback_idle tcb result s Hidle). split; [exact Hidle|reflexivity].
    + split; [exact Hidle | reflexivity].
  - split; [exact Hidle | reflexivity].
  - destruct (IH1 Hidle) as (Hp1 & Hr1). destruct (IH2 Hp1) as (Hp2 & Hr2).
    split; [exact Hp2 | congruence].
Qed.

Lemma pg_worker_nonblocking_never_records_result_witness :
  g_pendingfilltcb (pg_callback 1%nat (- 5)
                      (pass_state cfg_nonblocking hw_fills one_waiting)) = None /\
  g_fillresult (pg_callback 1%nat (- 5)
                  (pass_state cfg_nonblocking hw_fills one_waiting))
  = g_fillresult one_waiting.
Proof.
  apply (pg_worker_nonblocking_never_records_result cfg_nonblocking hw_fills
           one_waiting _ eq_refl).
  - apply rt_trans with (y := pass_state cfg_nonblocking hw_fills one_waiting).
    + apply rt_step, step_pass. vm_compute. reflexivity.
    + apply rt_step, step_callback.
  - reflexivity.
Defined.

(** X5.  A pass of the worker writes one priority at most: every task keeps
    its priority, except that the task at the head of [g_readytorun] may
    have been given [CONFIG_PAGING_DEFPRIO], which may be above or below the
    priority it had. *)
Theorem pg_worker_pass_priorities
    (cfg : config) (hw : arch) (s : state) (o : outcome) :
  pg_worker_pass cfg hw s = Some o ->
  forall p,
    sched_priority (final o) p = sched_priority s p \/
    (p = g_readytorun_head s /\
     sched_priority (final o) p = CONFIG_PAGING_DEFPRIO cfg).
Proof.
  assert (Hdone : forall s0 p,
             sched_priority s0 = sched_priority s ->
             g_readytorun_head s0 = g_readytorun_head s ->
             sched_priority (pg_alldone cfg s0) p = sched_priority s p \/
             (p = g_readytorun_head s /\
              sched_priority (pg_alldone cfg s0) p = CONFIG_PAGING_DEFPRIO cfg)).
  { intros s0 p Hprio Hhead. unfold pg_alldone. cbn. rewrite Hhead, Hprio.
    destruct (Nat.eqb_spec p (g_readytorun_head s)); auto. }
  unfold pg_worker_pass. destruct (CONFIG_PAGING_BLOCKINGFILL cfg).
  - intros [= <-] p. unfold pg_worker_fillevent, ASSERT.
    pose proof (pg_startfill_frame cfg hw s) as (_ & H0 & _).
    pose proof (pg_startfill_frame cfg hw (pg_fillcomplete s)) as (_ & H1 & _).
    destruct (g_pendingfilltcb s).
    + destruct (negb (g_fillresult s =? - EBUSY)).
      * destruct (g_fillresult s =? OK); [| left; reflexivity].
        cbn [pg_fillcomplete up_unblock_task log g_waitingforfill].
        destruct (g_waitingforfill s).
        -- apply Hdone; reflexivity.
        -- left. rewrite H1. reflexivity.
      * left. reflexivity.
    + destruct (g_waitingforfill s); [left; reflexivity|].
      left. rewrite H0. reflexivity.
  - unfold pg_worker_fillall.
    destruct (pg_worker_while cfg hw (length (g_waitingforfill s)) s)
      as [o1|] eqn:Hloop; [| discriminate].
    destruct (pg_worker_while_frame cfg hw _ _ _ Hloop) as (Hprio & _).
    destruct (pg_worker_while_total cfg hw _ s (le_n _)) as (o2 & Ho2 & _ & Hh & _).
    rewrite Hloop in Ho2. injection Ho2 as <-.
    destruct o1 as [s1|s1]; intros [= <-] p; cbn [final] in *.
    + apply Hdone; assumption.
    + left. rewrite Hprio. reflexivity.
Qed.

Lemma pg_worker_pass_priorities_witness :
  sched_priority
    (final (Returns (pass_state cfg_nonblocking hw_fills two_waiting))) 2%nat
  = sched_priority two_waiting 2%nat \/
  (2%nat = g_readytorun_head two_waiting /\
   sched_priority
     (final (Returns (pass_state cfg_nonblocking hw_fills two_waiting))) 2%nat
   = CONFIG_PAGING_DEFPRIO cfg_nonblocking).
Proof.
  assert (Hpass : pg_worker_pass cfg_nonblocking hw_fills two_waiting
                  = Some (Returns (pass_state cfg_nonblocking hw_fills two_waiting)))
    by (vm_compute; reflexivity).
  exact (pg_worker_pass_priorities cfg_nonblocking hw_fills two_waiting
           (Returns (pass_state cfg_nonblocking hw_fills two_waiting)) Hpass 2%nat).
Defined.

(** ** More about [pg_callback] *)

(** X13.  After a callback with a fill pending the worker runs at least at
    the priority of the pending task and at least at the priority of the
    task at the head of [g_waitingforfill], whatever its priority was. *)
Theorem pg_callback_priority_bounds
    (tcb : pid) (result : Z) (s : state) (ptcb : pid) :
  g_pendingfilltcb s = Some ptcb ->
  sched_priority (pg_callback tcb result s) ptcb
  <= worker_priority (pg_callback tcb result s) /\
  (forall h, hd_error (g_waitingforfill s) = Some h ->
     sched_priority (pg_callback tcb result s) h
     <= worker_priority (pg_callback tcb result s)).
Proof.
  intros Hp.
  destruct (pg_callback_establishes_priority tcb result s ptcb Hp) as (H1 & H2).
  split; [exact H1|]. intros h Hh. apply H2.
  rewrite pg_callback_waitingforfill. exact Hh.
Qed.

Lemma pg_callback_priority_bounds_witness :
  sched_priority (pg_callback 1%nat OK (example_state (Some 1%nat) [3%nat; 2%nat] OK 5))
    1%nat
  <= worker_priority (pg_callback 1%nat OK (example_state (Some 1%nat) [3%nat; 2%nat] OK 5)) /\
  sched_priority (pg_callback 1%nat OK (example_state (Some 1%nat) [3%nat; 2%nat] OK 5))
    3%nat
  <= worker_priority (pg_callback 1%nat OK (example_state (Some 1%nat) [3%nat; 2%nat] OK 5)).
Proof.
  destruct (pg_callback_priority_bounds 1%nat OK
              (example_state (Some 1%nat) [3%nat; 2%nat] OK 5) 1%nat eq_refl)
    as (Hpending & Hhead).
  split; [exact Hpending | exact (Hhead 3%nat eq_refl)].
Defined.

(** X15.  A second callback while the same fill is pending overwrites the
    result of the first: [g_fillresult] holds what the later callback
    reported ([-ENOSYS] for [-EBUSY]).  The worker's priority is the one the
    first callback left, and the worker is signalled twice. *)
Theorem pg_callback_twice
    (tcb1 tcb2 : pid) (result1 result2 : Z) (s : state) (ptcb : pid) :
  g_pendingfilltcb s = Some ptcb ->
  let s1 := pg_callback tcb1 result1 s in
  let s2 := pg_callback tcb2 result2 s1 in
  g_fillresult s2 = stored_result result2 /\
  worker_priority s2 = worker_priority s1 /\
  events s2 = events s ++ [EvKill (g_pgworker s); EvKill (g_pgworker s)].
Proof.
  intros Hp. cbv zeta.
  pose proof (pg_callback_pendingfilltcb tcb1 result1 s) as Hp1. rewrite Hp in Hp1.
  destruct (pg_callback_globals tcb1 result1 s) as (Hw1 & _).
  split; [exact (pg_callback_fillresult tcb2 result2 _ ptcb Hp1)|]. split.
  - rewrite (pg_callback_worker_priority tcb2 result2 _ ptcb Hp1).
    destruct (pg_callback_establishes_priority tcb1 result1 s ptcb Hp) as (H1 & H2).
    cbv zeta in H1, H2. unfold boost_target.
    destruct (hd_error (g_waitingforfill (pg_callback tcb1 result1 s))) as [h|] eqn:Hh.
    + specialize (H2 h eq_refl). lia.
    + lia.
  - rewrite !pg_callback_events, Hw1, <- app_assoc. reflexivity.
Qed.

Lemma pg_callback_twice_witness :
  g_fillresult (pg_callback 1%nat (- EBUSY)
                  (pg_callback 1%nat OK (example_state (Some 1%nat) [3%nat] OK 5)))
  = stored_result (- EBUSY) /\
  worker_priority (pg_callback 1%nat (- EBUSY)
                     (pg_callback 1%nat OK (example_state (Some 1%nat) [3%nat] OK 5)))
  = worker_priority (pg_callback 1%nat OK (example_state (Some 1%nat) [3%nat] OK 5)) /\
  events (pg_callback 1%nat (- EBUSY)
            (pg_callback 1%nat OK (example_state (Some 1%nat) [3%nat] OK 5)))
  = [] ++ [EvKill 0%nat; EvKill 0%nat].
Proof.
  exact (pg_callback_twice 1%nat 1%nat OK (- EBUSY)
           (example_state (Some 1%nat) [3%nat] OK 5) 1%nat eq_refl).
Defined.

Lemma priority_invariant_reachable_witness :
  priority_invariant cfg_nonblocking
    (pg_callback 1%nat (- 5) (pass_state cfg_nonblocking hw_fills one_waiting)) /\
  worker_runs
    (pg_callback 1%nat (- 5) (pass_state cfg_nonblocking hw_fills one_waiting)).
Proof.
  apply (priority_invariant_reachable cfg_nonblocking hw_fills one_waiting
           (pg_callback 1%nat (- 5) (pass_state cfg_nonblocking hw_fills one_waiting))
           eq_refl).
  - apply rt_trans with (y := pass_state cfg_nonblocking hw_fills one_waiting).
    + apply rt_step, step_pass. vm_compute. reflexivity.
    + apply rt_step, step_callback.
  - split; [| reflexivity]. unfold priority_invariant.
    split; [intros tcb Hp; discriminate Hp|].
    split; [| intros _ Hq; discriminate Hq].
    intros tcb Hh. injection Hh as <-. vm_compute. discriminate.
Defined.

(** ** The configurations that build *)

(** The source builds for one kind of configuration only: the fill is
    non-blocking and there is no timeout. *)
Lemma builds_nonblocking_no_timeout (cfg : config) :
  builds cfg = true ->
  CONFIG_PAGING_BLOCKINGFILL cfg = false /\
  CONFIG_PAGING_TIMEOUT_TICKS cfg = None.
Proof.
  unfold builds, uses_fillresult_undeclared, declares_fillresult,
    malformed_if_active, malformed_declaration_active.
  destruct (CONFIG_PAGING_BLOCKINGFILL cfg);
    destruct (CONFIG_PAGING_TIMEOUT_TICKS cfg); cbn; intros H;
    try discriminate H; split; reflexivity.
Qed.



(** C3, what the source does.  No configuration with
    [CONFIG_PAGING_BLOCKINGFILL] defined builds: the text compiled for it
    reads [g_fillresult], which is declared only when the flag is undefined,
    and contains the malformed [#if] of line 486.  Every configuration that
    builds has the flag undefined and runs the loop of lines 516-532, with
    the [up_fillpage] that takes a callback and only starts the fill: in the
    example both waiting tasks are unblocked right after their fills were
    started. *)
Theorem pg_worker_blocking_does_not_build :
  (forall cfg,
     CONFIG_PAGING_BLOCKINGFILL cfg = true ->
     builds cfg = false /\
     uses_fillresult_undeclared cfg = true /\
     malformed_if_active cfg = true) /\
  (forall cfg hw s,
     builds cfg = true ->
     CONFIG_PAGING_BLOCKINGFILL cfg = false /\
     pg_worker_pass cfg hw s = pg_worker_fillall cfg hw s) /\
  builds cfg_nonblocking = true /\
  (exists s',
     pg_worker_pass cfg_nonblocking hw_fills two_waiting = Some (Returns s') /\
     events s' = [EvCheckMapping 2%nat; EvAllocPage 2%nat;
                  EvFillPage 2%nat 4096 true; EvUnblock (Some 2%nat);
                  EvCheckMapping 1%nat; EvAllocPage 1%nat;
                  EvFillPage 1%nat 4096 true; EvUnblock (Some 1%nat)] /\
     g_pendingfilltcb s' = None /\
     g_waitingforfill s' = []).
Proof.
  split; [| split; [| split]].
  - intros cfg Hcfg.
    unfold builds, uses_fillresult_undeclared, declares_fillresult,
      malformed_if_active.
    rewrite Hcfg. repeat split.
  - intros cfg hw s Hbuilds.
    destruct (builds_nonblocking_no_timeout cfg Hbuilds) as (Hcfg & _).
    split; [exact Hcfg|]. unfold pg_worker_pass. rewrite Hcfg. reflexivity.
  - reflexivity.
  - eexists. split; [vm_compute; reflexivity|].
    split; [vm_compute; reflexivity|]. split; vm_compute; reflexivity.
Qed.

(** C4, what the source does.  No configuration with
    [CONFIG_PAGING_TIMEOUT_TICKS] defined builds: with the flag
    [CONFIG_PAGING_BLOCKINGFILL] undefined line 113 is in the way, with the
    flag defined line 486 is.  In a configuration that builds, once a pass
    has returned, a later pass with nobody new waiting returns as well
    whatever the timer reads: in the example the fill of task 1 is started,
    no callback ever comes, and every later pass returns without a call. *)
Theorem pg_worker_timeout_does_not_build :
  (forall cfg ticks,
     CONFIG_PAGING_TIMEOUT_TICKS cfg = Some ticks ->
     builds cfg = false /\
     (malformed_declaration_active cfg = true \/ malformed_if_active cfg = true)) /\
  (forall cfg hw s s1 ticks,
     builds cfg = true ->
     pg_worker_pass cfg hw s = Some (Returns s1) ->
     pg_worker_pass cfg hw (at_time ticks s1)
     = Some (Returns (pg_alldone cfg (at_time ticks s1)))) /\
  builds cfg_nonblocking = true /\
  (exists s1,
     pg_worker_pass cfg_nonblocking hw_fills one_waiting = Some (Returns s1) /\
     fillpage_calls (events s1) = [1%nat] /\
     forall ticks,
       exists s2,
         pg_worker_pass cfg_nonblocking hw_fills (at_time ticks s1)
         = Some (Returns s2) /\
         events s2 = events s1).
Proof.
  assert (Hlater : forall cfg hw s s1 ticks,
             builds cfg = true ->
             pg_worker_pass cfg hw s = Some (Returns s1) ->
             pg_worker_pass cfg hw (at_time ticks s1)
             = Some (Returns (pg_alldone cfg (at_time ticks s1)))).
  { intros cfg hw s s1 ticks Hbuilds Hpass.
    destruct (builds_nonblocking_no_timeout cfg Hbuilds) as (Hcfg & _).
    apply pg_worker_pass_nonblocking_nobody_waiting; [exact Hcfg|].
    unfold pg_worker_pass in Hpass. rewrite Hcfg in Hpass.
    exact (proj1 (pg_worker_fillall_idle cfg hw s s1 Hpass)). }
  split; [| split; [exact Hlater | split]].
  - intros cfg ticks Hticks.
    unfold builds, uses_fillresult_undeclared, declares_fillresult,
      malformed_if_active, malformed_declaration_active.
    rewrite Hticks. destruct (CONFIG_PAGING_BLOCKINGFILL cfg); cbn; auto.
  - reflexivity.
  - exists (pass_state cfg_nonblocking hw_fills one_waiting).
    assert (Hpass : pg_worker_pass cfg_nonblocking hw_fills one_waiting
                    = Some (Returns (pass_state cfg_nonblocking hw_fills one_waiting)))
      by (vm_compute; reflexivity).
    split; [exact Hpass|]. split; [vm_compute; reflexivity|].
    intros ticks. eexists. split.
    + exact (Hlater cfg_nonblocking hw_fills one_waiting _ ticks eq_refl Hpass).
    + reflexivity.
Qed.

(** C6 at a failing input.  The configuration builds.  Task 1 waits; the
    pass of the worker starts its fill with the callback, unblocks it at
    once and empties the slot.  The fill is in flight when the callback
    reports [-EBUSY]: it finds no task in [g_pendingfilltcb], stores
    nothing, [g_fillresult] keeps its [OK], and the next pass of the worker
    returns without an assertion. *)
Theorem pg_callback_busy_result_is_dropped :
  builds cfg_nonblocking = true /\
  exists s1 s2,
    pg_worker_pass cfg_nonblocking hw_fills one_waiting = Some (Returns s1) /\
    fillpage_calls (events s1) = [1%nat] /\
    g_pendingfilltcb s1 = None /\
    g_fillresult (pg_callback 1%nat (- EBUSY) s1) = OK /\
    pg_worker_pass cfg_nonblocking hw_fills (pg_callback 1%nat (- EBUSY) s1)
    = Some (Returns s2) /\
    events s2 = events s1 ++ [EvKill 0%nat].
Proof.
  split; [reflexivity|]. do 2 eexists.
  split; [vm_compute; reflexivity|]. split; [vm_compute; reflexivity|].
  split; [vm_compute; reflexivity|]. split; [vm_compute; reflexivity|].
  split; vm_compute; reflexivity.
Qed.

(** X17.  With a fill pending, [pg_callback] stores [-ENOSYS] for a reported
    [-EBUSY] and every other result as it is; [g_fillresult] is never
    [-EBUSY] after such a callback. *)
Theorem pg_callback_stores_normalised_result
    (tcb : pid) (result : Z) (s : state) (ptcb : pid) :
  g_pendingfilltcb s = Some ptcb ->
  (result = - EBUSY -> g_fillresult (pg_callback tcb result s) = - ENOSYS) /\
  (result <> - EBUSY -> g_fillresult (pg_callback tcb result s) = result) /\
  g_fillresult (pg_callback tcb result s) <> - EBUSY.
Proof.
  intros Hp. rewrite (pg_callback_fillresult tcb result s ptcb Hp).
  destruct (Z.eqb_spec result (- EBUSY)) as [Hb|Hb].
  - split; [intros _; reflexivity|]. split; [intros H; contradiction|].
    apply busy_is_not_enosys.
  - split; [intros H; contradiction|]. split; [intros _; reflexivity|].
    exact Hb.
Qed.

Lemma pg_callback_stores_normalised_result_witness :
  g_fillresult (pg_callback 1%nat (- EBUSY)
                  (example_state (Some 1%nat) [] OK 10)) = - ENOSYS /\
  g_fillresult (pg_callback 1%nat (- EBUSY)
                  (example_state (Some 1%nat) [] OK 10)) <> - EBUSY.
Proof.
  pose proof (pg_callback_stores_normalised_result 1%nat (- EBUSY)
                (example_state (Some 1%nat) [] OK 10) 1%nat eq_refl)
    as (Hbusy & _ & Hnever).
  split; [exact (Hbusy eq_refl) | exact Hnever].
Defined.
